(** * OutlineServer: the session object of [outline_server_repository/server.ts]

    A shallow embedding of the class [OutlineServer] and of the helper
    [fetchTunnelConfig], followed by the properties of its constructor and of
    [connect()] / [disconnect()].

    - JavaScript strings are sequences of UTF-16 code units ([jsstring]).
    - A value thrown by a collaborator is a [JsVal]; an error built by this
      file ([new errors.X(...)]) is kept as its class and constructor
      arguments ([errors.Exn]), the classes themselves living in
      [model/errors.ts].
    - [async] methods are computations over a store holding [this], the state
      of the outside world and the log of the calls made to the collaborators
      with their outcomes; a rejected promise is a [Throw].  Assignments made
      before a throw stay. *)

From Stdlib Require Import List String Ascii Bool NArith ZArith Lia DecimalString.
Import ListNotations.

Set Implicit Arguments.
Open Scope string_scope.
Open Scope list_scope.

(** ** JavaScript strings *)

Definition jsstring := list N.

Definition str (s : string) : jsstring :=
  map N_of_ascii (list_ascii_of_string s).

Fixpoint jsstring_eqb (a b : jsstring) : bool :=
  match a, b with
  | [], [] => true
  | x :: a', y :: b' => N.eqb x y && jsstring_eqb a' b'
  | _, _ => false
  end.

(** [s.startsWith(p)] *)
Fixpoint startsWith (s p : jsstring) : bool :=
  match p, s with
  | [], _ => true
  | y :: p', x :: s' => N.eqb x y && startsWith s' p'
  | _ :: _, [] => false
  end.

(** [s.includes(sub)] *)
Fixpoint includes (s sub : jsstring) : bool :=
  startsWith s sub ||
  match s with
  | [] => false
  | _ :: s' => includes s' sub
  end.

(** WhiteSpace and LineTerminator code points of ECMAScript, the ones
    [String.prototype.trim] strips. *)
Definition isWhiteSpace (c : N) : bool :=
  match c with
  | 9 | 10 | 11 | 12 | 13 | 32 | 160 | 5760 | 8232 | 8233 | 8239 | 8287
  | 12288 | 65279 => true
  | _ => (8192 <=? c) && (c <=? 8202)
  end%N.

Fixpoint trimStart (s : jsstring) : jsstring :=
  match s with
  | c :: s' => if isWhiteSpace c then trimStart s' else s
  | [] => []
  end.

Definition trimEnd (s : jsstring) : jsstring := rev (trimStart (rev s)).

(** [s.trim()] *)
Definition trim (s : jsstring) : jsstring := trimEnd (trimStart s).

(** [n.toString()] for an integral number (ports are integers). *)
Definition Number_toString (n : Z) : jsstring :=
  str (NilZero.string_of_int (Z.to_int n)).

(** ** JavaScript values, as far as [catch (cause)] inspects them *)

Inductive JsClass :=
| PlatformError
| SessionProviderError
| Class (name : string).

Definition JsClass_eqb (a b : JsClass) : bool :=
  match a, b with
  | PlatformError, PlatformError => true
  | SessionProviderError, SessionProviderError => true
  | Class n, Class m => String.eqb n m
  | _, _ => false
  end.

(** An object is its prototype chain (the constructors [instanceof] finds)
    and its properties.  Numbers are restricted to integers. *)
#[local] Unset Elimination Schemes.
Inductive JsVal :=
| JsUndefined
| JsNull
| JsBool (b : bool)
| JsNum (n : Z)
| JsStr (s : jsstring)
| JsObj (protoChain : list JsClass) (props : list (string * JsVal)).
#[local] Set Elimination Schemes.

(** [v instanceof C] *)
Definition instanceof (v : JsVal) (C : JsClass) : bool :=
  match v with
  | JsObj chain _ => existsb (JsClass_eqb C) chain
  | _ => false
  end.

Fixpoint lookup (props : list (string * JsVal)) (key : string) : JsVal :=
  match props with
  | [] => JsUndefined
  | (k, v) :: rest => if String.eqb k key then v else lookup rest key
  end.

(** [v.key]: [None] when the read itself throws a TypeError, which is the
    case exactly for [undefined] and [null]. *)
Definition getProp (v : JsVal) (key : string) : option JsVal :=
  match v with
  | JsUndefined | JsNull => None
  | JsObj _ props => Some (lookup props key)
  | JsBool _ | JsNum _ | JsStr _ => Some JsUndefined
  end.

(** ToBoolean *)
Definition truthy (v : JsVal) : bool :=
  match v with
  | JsUndefined | JsNull => false
  | JsBool b => b
  | JsNum n => negb (Z.eqb n 0)
  | JsStr s => match s with [] => false | _ => true end
  | JsObj _ _ => true
  end.

(** The settled outcome of a call to a collaborator: the value it returned
    (or its promise resolved with), or the value it threw (rejected with). *)
Inductive Outcome (A : Type) :=
| Resolved (a : A)
| Rejected (reason : JsVal).
Arguments Resolved {A} a.
Arguments Rejected {A} reason.

(** ** Errors raised by this file *)

Module errors.

(** What a method of [OutlineServer] throws: a value received from a
    collaborator ([throw cause], or a rejection that is not caught), one of
    the errors constructed here with the arguments of its constructor, or
    the TypeError of a property read on [undefined] / [null]. *)
Inductive Exn :=
| Value (v : JsVal)
| ProxyConnectionFailure (message : jsstring) (cause : JsVal)
| ServerAccessKeyInvalid (message : jsstring) (cause : option JsVal)
| RegularNativeError
| TypeError.

(** [e] is an error constructed around [v] as its cause. *)
Definition wraps (e : Exn) (v : JsVal) : Prop :=
  match e with
  | ProxyConnectionFailure _ cause => cause = v
  | ServerAccessKeyInvalid _ (Some cause) => cause = v
  | _ => False
  end.

End errors.

Inductive Result (A : Type) :=
| Ok (a : A)
| Throw (e : errors.Exn).
Arguments Ok {A} a.
Arguments Throw {A} e.

(** ** Data of [config.ts], [vpn.ts] and [model/server.ts] *)

Inductive ServerType := DYNAMIC_CONNECTION | STATIC_CONNECTION.

Module URL.
Record t := { href : jsstring; hostname : jsstring; port : jsstring }.

Definition toString (u : t) : jsstring := href u.
End URL.

Record EndpointAddress := { host : jsstring; port : Z }.

Record TunnelConfigJson := { firstHop : EndpointAddress; transport : JsVal }.

Inductive ServiceConfig :=
| DynamicServiceConfig (name : option jsstring) (transportConfigLocation : URL.t)
| StaticServiceConfig (name : option jsstring) (tunnelConfig : TunnelConfigJson).

Definition ServiceConfig_name (c : ServiceConfig) : option jsstring :=
  match c with
  | DynamicServiceConfig n _ => n
  | StaticServiceConfig n _ => n
  end.

Record StartRequestJson := {
  request_id : jsstring;
  request_name : jsstring;
  request_config : option TunnelConfigJson
}.

(** ** The class *)

Section Server.

(** The state of everything outside the session object: the tunnel engine,
    the network. *)
Context {World : Type}.

(** [VpnApi] of [vpn.ts] *)
Record VpnApi := {
  start : StartRequestJson -> World -> Outcome unit * World;
  stop : jsstring -> World -> Outcome unit * World;
  isRunning : jsstring -> World -> Outcome bool * World
}.

(** [ResourceFetcher] of [resource_fetcher.ts] *)
Record ResourceFetcher := {
  fetch : jsstring -> World -> Outcome jsstring * World
}.

Definition Localizer := jsstring -> jsstring.

Record OutlineServer := {
  vpnApi : VpnApi;
  urlFetcher : ResourceFetcher;
  id : jsstring;
  name : jsstring;
  accessKey : jsstring;
  type : ServerType;
  tunnelConfigLocation : option URL.t;
  displayAddress : jsstring;
  staticTunnelConfig : option TunnelConfigJson;
  errorMessageId : option jsstring
}.

Definition with_displayAddress (s : OutlineServer) (a : jsstring)
  : OutlineServer :=
  {| vpnApi := vpnApi s; urlFetcher := urlFetcher s; id := id s;
     name := name s; accessKey := accessKey s; type := type s;
     tunnelConfigLocation := tunnelConfigLocation s;
     displayAddress := a;
     staticTunnelConfig := staticTunnelConfig s;
     errorMessageId := errorMessageId s |}.

(** Functions imported from modules that are not part of this file. *)
Variable parseAccessKey : jsstring -> Outcome ServiceConfig.
Variable parseTunnelConfig : jsstring -> Outcome TunnelConfigJson.
Variable joinHostPort : jsstring -> jsstring -> jsstring.
Variable fromErrorCode : JsVal -> Outcome JsVal.

(** *** Computations *)

(** A call made to a collaborator, with its outcome. *)
Inductive Call :=
| CallFetch (url : jsstring) (outcome : Outcome jsstring)
| CallStart (request : StartRequestJson) (outcome : Outcome unit)
| CallStop (id : jsstring) (outcome : Outcome unit)
| CallIsRunning (id : jsstring) (outcome : Outcome bool).

Record Store := {
  this : OutlineServer;
  world : World;
  calls : list Call
}.

Definition M (A : Type) := Store -> Result A * Store.

Definition ret {A} (a : A) : M A := fun st => (Ok a, st).

Definition bind {A B} (m : M A) (k : A -> M B) : M B :=
  fun st =>
    match m st with
    | (Ok a, st') => k a st'
    | (Throw e, st') => (Throw e, st')
    end.

Definition throw {A} (e : errors.Exn) : M A := fun st => (Throw e, st).

Definition getThis : M OutlineServer := fun st => (Ok (this st), st).

(** [this.displayAddress = a] *)
Definition setDisplayAddress (a : jsstring) : M unit :=
  fun st =>
    (Ok tt, {| this := with_displayAddress (this st) a;
               world := world st; calls := calls st |}).

(** Calls a collaborator, logs the call and hands its outcome back, as a
    [try { await f(...) } catch (cause) { ... }] sees it. *)
Definition attempt {A} (c : Outcome A -> Call)
           (f : World -> Outcome A * World) : M (Outcome A) :=
  fun st =>
    let (o, w) := f (world st) in
    (Ok o, {| this := this st; world := w; calls := calls st ++ [c o] |}).

(** [await f(...)] outside any [try]: a rejection propagates as it is. *)
Definition await {A} (c : Outcome A -> Call)
           (f : World -> Outcome A * World) : M A :=
  bind (attempt c f)
       (fun o => match o with
                 | Resolved a => ret a
                 | Rejected v => throw (errors.Value v)
                 end).

Notation "x <- m ;; k" := (bind m (fun x => k))
  (at level 61, m at next level, right associativity).
Notation "m ;;; k" := (bind m (fun _ => k))
  (at level 61, right associativity).

(** *** [fetchTunnelConfig] *)

Definition fetchTunnelConfig (urlFetcher : ResourceFetcher)
           (configLocation : option URL.t) : M TunnelConfigJson :=
  match configLocation with
  | None => throw errors.TypeError
  | Some configLocation =>
    let url := URL.toString configLocation in
    body <- await (CallFetch url) (fetch urlFetcher url) ;;
    let responseBody := trim body in
    if negb (truthy (JsStr responseBody)) then
      throw (errors.ServerAccessKeyInvalid
               (str "Got empty config from dynamic key.") None)
    else
      match parseTunnelConfig responseBody with
      | Resolved config => ret config
      | Rejected cause =>
        if instanceof cause SessionProviderError then
          throw (errors.Value cause)
        else
          throw (errors.ServerAccessKeyInvalid
                   (str "Failed to parse VPN information fetched from dynamic access key.")
                   (Some cause))
      end
  end.

(** *** [constructor] *)

(** [a ?? b], [None] standing for [null] and [undefined] *)
Definition nullish_coalesce (a b : option jsstring) : option jsstring :=
  match a with
  | Some _ => a
  | None => b
  end.

(** [!n] *)
Definition name_is_falsy (n : option jsstring) : bool :=
  match n with
  | None => true
  | Some s => negb (truthy (JsStr s))
  end.

(** [new OutlineServer(vpnApi, urlFetcher, id, name, accessKey, localize)]:
    the object built, or what [parseAccessKey] threw. *)
Definition constructor (vpnApi : VpnApi) (urlFetcher : ResourceFetcher)
           (id : jsstring) (name : option jsstring) (accessKey : jsstring)
           (localize : Localizer) : Result OutlineServer :=
  match parseAccessKey accessKey with
  | Rejected v => Throw (errors.Value v)
  | Resolved serviceConfig =>
    let this_name := nullish_coalesce name (ServiceConfig_name serviceConfig) in
    match serviceConfig with
    | DynamicServiceConfig _ transportConfigLocation =>
      let this_tunnelConfigLocation := transportConfigLocation in
      let this_name' :=
        if name_is_falsy this_name then
          if jsstring_eqb (URL.port this_tunnelConfigLocation) (str "443")
          then URL.hostname this_tunnelConfigLocation
          else joinHostPort (URL.hostname this_tunnelConfigLocation)
                            (URL.port this_tunnelConfigLocation)
        else match this_name with Some s => s | None => [] end in
      Ok {| vpnApi := vpnApi; urlFetcher := urlFetcher; id := id;
            name := this_name'; accessKey := accessKey;
            type := DYNAMIC_CONNECTION;
            tunnelConfigLocation := Some this_tunnelConfigLocation;
            displayAddress := [];
            staticTunnelConfig := None;
            errorMessageId := None |}
    | StaticServiceConfig _ tunnelConfig =>
      let firstHop := firstHop tunnelConfig in
      let this_name' :=
        if name_is_falsy this_name then
          localize (if includes accessKey (str "outline=1")
                    then str "server-default-name-outline"
                    else str "server-default-name")
        else match this_name with Some s => s | None => [] end in
      Ok {| vpnApi := vpnApi; urlFetcher := urlFetcher; id := id;
            name := this_name'; accessKey := accessKey;
            type := STATIC_CONNECTION;
            tunnelConfigLocation := None;
            displayAddress :=
              joinHostPort (host firstHop) (Number_toString (port firstHop));
            staticTunnelConfig := Some tunnelConfig;
            errorMessageId := None |}
    end
  end.

(** [get address()] *)
Definition address (s : OutlineServer) : jsstring := displayAddress s.

(** *** [connect] *)

(** The [try] block holds the call to [start] alone, so that [catch (cause)]
    is the case analysis on its outcome. *)
Definition connect : M unit :=
  self <- getThis ;;
  tunnelConfig <-
    match type self with
    | DYNAMIC_CONNECTION =>
      tunnelConfig <- fetchTunnelConfig (urlFetcher self)
                                        (tunnelConfigLocation self) ;;
      setDisplayAddress
        (joinHostPort (host (firstHop tunnelConfig))
                      (Number_toString (port (firstHop tunnelConfig)))) ;;;
      ret (Some tunnelConfig)
    | STATIC_CONNECTION => ret (staticTunnelConfig self)
    end ;;
  self <- getThis ;;
  let request := {| request_id := id self;
                    request_name := name self;
                    request_config := tunnelConfig |} in
  outcome <- attempt (CallStart request) (start (vpnApi self) request) ;;
  match outcome with
  | Resolved _ => ret tt
  | Rejected cause =>
    if instanceof cause PlatformError then
      throw (errors.Value cause)
    else
      match getProp cause "errorCode" with
      | None => throw errors.TypeError
      | Some errorCode =>
        if truthy errorCode then
          match fromErrorCode errorCode with
          | Resolved e => throw (errors.Value e)
          | Rejected v => throw (errors.Value v)
          end
        else
          self <- getThis ;;
          throw (errors.ProxyConnectionFailure
                   (str "Failed to connect to server " ++ name self ++ str ".")
                   cause)
      end
  end.

(** *** [disconnect] *)

Definition disconnect : M unit :=
  self <- getThis ;;
  outcome <- attempt (CallStop (id self)) (stop (vpnApi self) (id self)) ;;
  match outcome with
  | Resolved _ =>
    self <- getThis ;;
    match type self with
    | DYNAMIC_CONNECTION => setDisplayAddress []
    | STATIC_CONNECTION => ret tt
    end
  | Rejected e =>
    throw errors.RegularNativeError
  end.

(** *** [checkRunning] *)

Definition checkRunning : M bool :=
  self <- getThis ;;
  await (CallIsRunning (id self)) (isRunning (vpnApi self) (id self)).

(** The fields of [s] other than [displayAddress] have the same values in
    [s']. *)
Definition keeps_fields (s s' : OutlineServer) : Prop :=
  id s' = id s /\ type s' = type s /\ name s' = name s /\
  accessKey s' = accessKey s /\
  tunnelConfigLocation s' = tunnelConfigLocation s /\
  staticTunnelConfig s' = staticTunnelConfig s /\
  errorMessageId s' = errorMessageId s.

(** [s'] differs from [s] in [displayAddress] at most. *)
Definition same_but_address (s s' : OutlineServer) : Prop :=
  s' = with_displayAddress s (displayAddress s').

(** A computation that assigns no field of [this] but [displayAddress]. *)
Definition frames {A} (m : M A) : Prop :=
  forall st, same_but_address (this st) (this (snd (m st))).

(** A method called on [s] in world [w], with an empty call log. *)
Definition call {A} (m : M A) (s : OutlineServer) (w : World)
  : Result A * Store :=
  m {| this := s; world := w; calls := [] |}.

(** *** Callers

    The repository layer calls the methods of one server one after the
    other, each awaited before the next, and goes on whether the call
    returned or threw. *)

Inductive Method := Connect | Disconnect | CheckRunning.

Definition invoke (m : Method) : M unit :=
  match m with
  | Connect => connect
  | Disconnect => disconnect
  | CheckRunning => running <- checkRunning ;; ret tt
  end.

(** The store a sequence of calls leaves. *)
Fixpoint session (ms : list Method) (st : Store) : Store :=
  match ms with
  | [] => st
  | m :: rest => session rest (snd (invoke m st))
  end.

(** The store of a server nothing was called on yet. *)
Definition fresh (s : OutlineServer) (w : World) : Store :=
  {| this := s; world := w; calls := [] |}.

(** The fields the constructor sets together: a location and no embedded
    configuration on a dynamic server, the converse on a static one. *)
Definition wellFormed (s : OutlineServer) : Prop :=
  match type s with
  | DYNAMIC_CONNECTION =>
    tunnelConfigLocation s <> None /\ staticTunnelConfig s = None
  | STATIC_CONNECTION =>
    staticTunnelConfig s <> None /\ tunnelConfigLocation s = None
  end.

End Server.

(** ** [net.joinHostPort] *)

Module net.

(** Modelled from the spec: [joinHostPort] of [@outline/infrastructure/net],
    the helper that formats a first hop for display and whose source is not
    in [server.ts].  The spec's words: "host:port; if port is the default
    proxy port, display host only".  The spec gives the default proxy port
    no value; it is the first argument here. *)
Definition joinHostPort (defaultProxyPort : jsstring)
           (host port : jsstring) : jsstring :=
  if jsstring_eqb port defaultProxyPort then host
  else host ++ str ":" ++ port.

End net.

(** [shown] is the display of the hop [h0]: its host alone when its port is
    the default proxy port, host:port otherwise. *)
Definition displays (defaultProxyPort : jsstring) (h0 : EndpointAddress)
           (shown : jsstring) : Prop :=
  (Number_toString (port h0) = defaultProxyPort -> shown = host h0) /\
  (Number_toString (port h0) <> defaultProxyPort ->
   shown = host h0 ++ str ":" ++ Number_toString (port h0)).

(** ** Concrete collaborators

    A world without state and small stand-ins for the engine, the fetcher and
    the parsers, on which the methods can be run. *)

Module Example.

Definition World := unit.

(** A plain [Error] object of the native layer. *)
Definition plainError : JsVal :=
  JsObj [Class "Error"] [("message", JsStr (str "boom"))].

(** What Cordova / Electron reject with: an object carrying [errorCode]. *)
Definition nativeError (code : Z) : JsVal :=
  JsObj [Class "Object"] [("errorCode", JsNum code)].

Definition platformError : JsVal :=
  JsObj [PlatformError; Class "Error"] [("code", JsStr (str "ERR_VPN"))].

Definition providerError : JsVal :=
  JsObj [SessionProviderError; Class "CustomError"; Class "Error"]
        [("message", JsStr (str "key expired"))].

Definition ErrorX : JsVal :=
  JsObj [Class "ErrorX"; Class "NativeError"; Class "Error"] [].

Definition UnexpectedPluginError : JsVal :=
  JsObj [Class "UnexpectedPluginError"; Class "NativeError"; Class "Error"] [].

Definition fromErrorCode (code : JsVal) : Outcome JsVal :=
  match code with
  | JsNum 7 => Resolved ErrorX
  | JsNum _ => Resolved UnexpectedPluginError
  | _ => Rejected plainError
  end.

Definition vpnAccepting : @VpnApi World :=
  {| start := fun _ w => (Resolved tt, w);
     stop := fun _ w => (Resolved tt, w);
     isRunning := fun _ w => (Resolved true, w) |}.

Definition vpnRejecting (cause : JsVal) : @VpnApi World :=
  {| start := fun _ w => (Rejected cause, w);
     stop := fun _ w => (Rejected cause, w);
     isRunning := fun _ w => (Resolved false, w) |}.

Definition fetcherReturning (body : jsstring) : @ResourceFetcher World :=
  {| fetch := fun _ w => (Resolved body, w) |}.

Definition fetcherRejecting (reason : JsVal) : @ResourceFetcher World :=
  {| fetch := fun _ w => (Rejected reason, w) |}.

Definition hop : EndpointAddress :=
  {| host := str "example.com"; port := 8080 |}.

Definition tunnelConfig : TunnelConfigJson :=
  {| firstHop := hop; transport := JsStr (str "ss://...") |}.

(** A first hop on the port taken as the default proxy port below. *)
Definition tunnelConfig443 : TunnelConfigJson :=
  {| firstHop := {| host := str "example.com"; port := 443 |};
     transport := JsStr (str "ss://...") |}.

(** Accepts two documents, and fails in the two ways a parser can. *)
Definition parseTunnelConfig (body : jsstring) : Outcome TunnelConfigJson :=
  if jsstring_eqb body (str "transport: ok") then Resolved tunnelConfig
  else if jsstring_eqb body (str "transport: 443") then
    Resolved tunnelConfig443
  else if jsstring_eqb body (str "error: {}") then Rejected providerError
  else Rejected plainError.

Definition location : URL.t :=
  {| URL.href := str "https://conf.example.org:8443/key";
     URL.hostname := str "conf.example.org";
     URL.port := str "8443" |}.

(** The name a key carries after '#', reduced to one possible tag. *)
Definition keyName (accessKey : jsstring) : option jsstring :=
  if includes accessKey (str "#Office") then Some (str "Office") else None.

Definition parseAccessKey (accessKey : jsstring) : Outcome ServiceConfig :=
  if startsWith accessKey (str "ssconf://") then
    Resolved (DynamicServiceConfig (keyName accessKey) location)
  else if startsWith accessKey (str "ss://") then
    Resolved (StaticServiceConfig (keyName accessKey) tunnelConfig)
  else Rejected plainError.

Definition joinHostPort := net.joinHostPort (str "443").

(** A static key whose first hop is on the default proxy port, and its
    parser. *)
Definition staticKey443 : jsstring := str "ss://secret@example.com:443".

Definition parseAccessKey443 (accessKey : jsstring) : Outcome ServiceConfig :=
  if startsWith accessKey (str "ss://") then
    Resolved (StaticServiceConfig None tunnelConfig443)
  else Rejected plainError.

Definition localize (key : jsstring) : jsstring := str "L:" ++ key.

Definition dynamicKey : jsstring := str "ssconf://conf.example.org:8443/key".

Definition staticKey : jsstring := str "ss://secret@example.com:8080".

Definition dynamicServer (vpn : @VpnApi World)
           (fetcher : @ResourceFetcher World) : @OutlineServer World :=
  {| vpnApi := vpn; urlFetcher := fetcher;
     id := str "server-0"; name := str "My server";
     accessKey := dynamicKey;
     type := DYNAMIC_CONNECTION;
     tunnelConfigLocation := Some location;
     displayAddress := [];
     staticTunnelConfig := None;
     errorMessageId := None |}.

Definition staticServer (vpn : @VpnApi World) : @OutlineServer World :=
  {| vpnApi := vpn; urlFetcher := fetcherRejecting plainError;
     id := str "server-1"; name := str "Home";
     accessKey := staticKey;
     type := STATIC_CONNECTION;
     tunnelConfigLocation := None;
     displayAddress := str "example.com:8080";
     staticTunnelConfig := Some tunnelConfig;
     errorMessageId := None |}.

(** The request [connect()] builds on [dynamicServer] once it has resolved
    [config]. *)
Definition dynamicRequest (config : TunnelConfigJson) : StartRequestJson :=
  {| request_id := str "server-0"; request_name := str "My server";
     request_config := Some config |}.

(** The request [connect()] builds on [staticServer]. *)
Definition staticRequest : StartRequestJson :=
  {| request_id := str "server-1"; request_name := str "Home";
     request_config := Some tunnelConfig |}.

Definition connect : M unit :=
  connect (World := World) parseTunnelConfig joinHostPort fromErrorCode.

Definition invoke : Method -> M unit :=
  invoke (World := World) parseTunnelConfig joinHostPort fromErrorCode.

Definition session : list Method -> Store -> Store :=
  session (World := World) parseTunnelConfig joinHostPort fromErrorCode.

(** [new OutlineServer(vpn, fetcher, id, name, accessKey, localize)] *)
Definition newServer (vpn : @VpnApi World)
           (fetcher : @ResourceFetcher World) (id : jsstring)
           (name : option jsstring) (accessKey : jsstring)
  : Result (@OutlineServer World) :=
  constructor parseAccessKey joinHostPort vpn fetcher id name accessKey
              localize.

End Example.

(** * Properties *)

(** ** Strings *)

Lemma startsWith_app (p rest : jsstring) : startsWith (p ++ rest) p = true.
Proof.
  induction p as [|c p IH]; simpl.
  - destruct rest; reflexivity.
  - now rewrite N.eqb_refl, IH.
Qed.

Lemma includes_unfold (s sub : jsstring) :
  includes s sub =
  startsWith s sub || match s with [] => false | _ :: s' => includes s' sub end.
Proof. destruct s; reflexivity. Qed.

Lemma includes_app (pre sub post : jsstring) :
  includes (pre ++ sub ++ post) sub = true.
Proof.
  induction pre as [|c pre IH]; simpl.
  - rewrite includes_unfold, startsWith_app. reflexivity.
  - rewrite IH. apply orb_true_r.
Qed.

Lemma startsWith_inv (s p : jsstring) :
  startsWith s p = true -> exists rest, s = p ++ rest.
Proof.
  revert s; induction p as [|c p IH]; intros s H.
  - exists s. reflexivity.
  - destruct s as [|x s]; simpl in H; [discriminate|].
    apply andb_true_iff in H as [Hx Hs]. apply N.eqb_eq in Hx as ->.
    destruct (IH s Hs) as [rest ->]. exists rest. reflexivity.
Qed.

(** [includes] finds exactly the substrings. *)
Lemma includes_spec (s sub : jsstring) :
  includes s sub = true <-> exists pre post, s = pre ++ sub ++ post.
Proof.
  split.
  - induction s as [|c s IH]; rewrite includes_unfold; intros H;
      apply orb_true_iff in H as [H|H]; try discriminate.
    + apply startsWith_inv in H as [post ->]. exists [], post. reflexivity.
    + apply startsWith_inv in H as [post ->]. exists [], post. reflexivity.
    + destruct (IH H) as (pre & post & ->). exists (c :: pre), post.
      reflexivity.
  - intros (pre & post & ->). apply includes_app.
Qed.

Lemma trimStart_nil (s : jsstring) :
  trimStart s = [] <-> forallb isWhiteSpace s = true.
Proof.
  induction s as [|c s IH]; simpl.
  - tauto.
  - destruct (isWhiteSpace c); simpl; [exact IH | split; discriminate].
Qed.

Lemma trimStart_idem (s : jsstring) :
  forallb isWhiteSpace (trimStart s) = true <-> trimStart s = [].
Proof.
  induction s as [|c s IH]; simpl.
  - tauto.
  - destruct (isWhiteSpace c) eqn:E; [exact IH|].
    simpl. rewrite E. split; discriminate.
Qed.

Lemma forallb_rev (f : N -> bool) (s : jsstring) :
  forallb f (rev s) = forallb f s.
Proof.
  induction s as [|c s IH]; simpl; [reflexivity|].
  rewrite forallb_app, IH. simpl. rewrite andb_true_r. apply andb_comm.
Qed.

(** [trim] gives the empty string exactly on the strings made of white
    space only. *)
Lemma trim_nil (s : jsstring) :
  trim s = [] <-> forallb isWhiteSpace s = true.
Proof.
  unfold trim, trimEnd.
  rewrite <- trimStart_nil, <- trimStart_idem, <- (forallb_rev _ (trimStart s)),
    <- trimStart_nil.
  split; intros H.
  - apply (f_equal (@rev N)) in H. rewrite rev_involutive in H. exact H.
  - rewrite H. reflexivity.
Qed.

Lemma jsstring_eqb_eq (a b : jsstring) : jsstring_eqb a b = true <-> a = b.
Proof.
  revert b; induction a as [|x a IH]; intros [|y b]; simpl;
    try (split; [discriminate | congruence]); try tauto.
  rewrite andb_true_iff, N.eqb_eq, IH. split.
  - intros [-> ->]; reflexivity.
  - intros H; injection H; auto.
Qed.

Lemma truthy_JsStr (s : jsstring) : truthy (JsStr s) = false <-> s = [].
Proof. destruct s; simpl; split; congruence. Qed.

(** ** Frame *)

Section Frame.

Context {World : Type}.

Lemma same_but_address_refl (s : @OutlineServer World) :
  same_but_address s s.
Proof. destruct s; reflexivity. Qed.

Lemma same_but_address_trans (s1 s2 s3 : @OutlineServer World) :
  same_but_address s1 s2 -> same_but_address s2 s3 -> same_but_address s1 s3.
Proof.
  unfold same_but_address. intros H12 H23.
  rewrite H23 at 1. rewrite H12 at 1. reflexivity.
Qed.

Lemma same_but_address_keeps_fields (s s' : @OutlineServer World) :
  same_but_address s s' -> keeps_fields s s'.
Proof.
  unfold same_but_address. intros H. rewrite H. repeat split.
Qed.

Lemma frames_ret A (a : A) : frames (@ret World A a).
Proof. intros st. apply same_but_address_refl. Qed.

Lemma frames_throw A e : frames (@throw World A e).
Proof. intros st. apply same_but_address_refl. Qed.

Lemma frames_getThis : frames (@getThis World).
Proof. intros st. apply same_but_address_refl. Qed.

Lemma frames_setDisplayAddress a : frames (@setDisplayAddress World a).
Proof. intros st. reflexivity. Qed.

Lemma frames_attempt A c (f : World -> Outcome A * World) :
  frames (attempt c f).
Proof.
  intros st. unfold attempt. destruct (f (world st)); simpl.
  apply same_but_address_refl.
Qed.

Lemma frames_bind A B (m : @M World A) (k : A -> @M World B) :
  frames m -> (forall a, frames (k a)) -> frames (bind m k).
Proof.
  intros Hm Hk st. unfold bind. specialize (Hm st).
  destruct (m st) as [[a|e] st']; simpl in *.
  - eapply same_but_address_trans; [exact Hm | apply Hk].
  - exact Hm.
Qed.

Lemma frames_await A c (f : World -> Outcome A * World) :
  frames (await c f).
Proof.
  apply frames_bind; [apply frames_attempt|].
  intros [a|v]; [apply frames_ret | apply frames_throw].
Qed.

End Frame.

Create HintDb frames.
#[local] Hint Resolve frames_ret frames_throw frames_getThis
  frames_setDisplayAddress frames_attempt frames_await : frames.

Ltac frames :=
  repeat first
    [ apply frames_bind; [|intro]
    | solve [auto with frames]
    | match goal with
      | |- frames (match ?x with _ => _ end) => destruct x
      | |- frames (if ?x then _ else _) => destruct x
      end ].

(** Unfolds the constructor and the methods. *)
Ltac expose :=
  unfold constructor, connect, disconnect, fetchTunnelConfig in *.

(** Unfolds a method down to the calls of its collaborators. *)
Ltac run :=
  unfold call, connect, disconnect, fetchTunnelConfig,
    await, attempt, bind, getThis, setDisplayAddress, ret, throw in *;
  cbn [this world calls fst snd displayAddress with_displayAddress] in *.

(** Case analysis on the next scrutinee that is not itself a [match]. *)
Ltac crunch :=
  repeat (cbn [this world calls fst snd displayAddress with_displayAddress
               negb] in *;
          match goal with
          | |- context [match ?x with _ => _ end] =>
            lazymatch x with
            | context [match _ with _ => _ end] => fail
            | _ => destruct x eqn:?
            end
          end).

(** Splits a hypothesis [In c log] on a concrete log into the entries equal
    to [c]. *)
Ltac in_calls :=
  repeat match goal with
         | H : _ \/ _ |- _ => destruct H
         | H : False |- _ => destruct H
         | H : CallFetch _ _ = _ |- _ => inversion H; clear H; subst
         | H : CallStart _ _ = _ |- _ => inversion H; clear H; subst
         | H : CallStop _ _ = _ |- _ => inversion H; clear H; subst
         end.

Section Properties.

Context {World : Type}.
Variable parseAccessKey : jsstring -> Outcome ServiceConfig.
Variable parseTunnelConfig : jsstring -> Outcome TunnelConfigJson.
Variable joinHostPort : jsstring -> jsstring -> jsstring.
Variable fromErrorCode : JsVal -> Outcome JsVal.

Local Abbreviation Server := (@OutlineServer World).
Local Abbreviation connect := (connect (World := World)
                             parseTunnelConfig joinHostPort fromErrorCode).
Local Abbreviation fetchTunnelConfig := (fetchTunnelConfig (World := World)
                                                 parseTunnelConfig).
Local Abbreviation constructor := (constructor (World := World)
                                     parseAccessKey joinHostPort).

Lemma frames_fetchTunnelConfig f loc : frames (fetchTunnelConfig f loc).
Proof. expose. frames. Qed.

Lemma frames_connect : frames connect.
Proof.
  pose proof frames_fetchTunnelConfig. expose. frames.
Qed.

Lemma frames_disconnect : frames (@disconnect World).
Proof. unfold disconnect. frames. Qed.

(** C8. [connect()] and [disconnect()], whether they succeed or throw,
    leave [id], [type], [name], [accessKey], [tunnelConfigLocation],
    [staticTunnelConfig] and [errorMessageId] as they were:
    [displayAddress] is the only field they assign. *)
Theorem connect_disconnect_frame (s : Server) (w : World) :
  keeps_fields s (this (snd (call connect s w))) /\
  keeps_fields s (this (snd (call disconnect s w))).
Proof.
  split; apply same_but_address_keeps_fields.
  - apply (frames_connect {| this := s; world := w; calls := [] |}).
  - apply (frames_disconnect {| this := s; world := w; calls := [] |}).
Qed.

(** C6. When the engine's [stop] fails, whatever it rejects with,
    [disconnect()] throws [RegularNativeError] and [displayAddress] is what
    it was. *)
Theorem disconnect_stop_failure (s : Server) (w w' : World) (cause : JsVal) :
  stop (vpnApi s) (id s) w = (Rejected cause, w') ->
  fst (call disconnect s w) = Throw errors.RegularNativeError /\
  address (this (snd (call disconnect s w))) = address s.
Proof.
  intros Hstop. run. rewrite Hstop. cbn. split; reflexivity.
Qed.

(** C7. When the engine's [stop] succeeds, [disconnect()] returns, with
    [displayAddress] reset to the empty string on a dynamic server and left
    as it was on a static one. *)
Theorem disconnect_stop_success (s : Server) (w w' : World) :
  stop (vpnApi s) (id s) w = (Resolved tt, w') ->
  fst (call disconnect s w) = Ok tt /\
  (type s = DYNAMIC_CONNECTION ->
   address (this (snd (call disconnect s w))) = []) /\
  (type s = STATIC_CONNECTION ->
   address (this (snd (call disconnect s w))) = address s).
Proof.
  intros Hstop. run. rewrite Hstop. cbn.
  destruct (type s); cbn; repeat split; congruence.
Qed.

(** ** [fetchTunnelConfig] *)

(** C2. Once the body is fetched it is trimmed.  An empty result fails with
    [ServerAccessKeyInvalid] and the message "Got empty config from dynamic
    key.", without a cause.  A non-empty one is parsed, and a parse failure
    that is a [SessionProviderError] is thrown as it is, any other one as a
    [ServerAccessKeyInvalid] holding it as cause. *)
Theorem fetchTunnelConfig_errors (f : ResourceFetcher) (loc : URL.t)
        (st : Store) (body : jsstring) (w' : World) :
  fetch f (URL.toString loc) (world st) = (Resolved body, w') ->
  let thrown := fst (fetchTunnelConfig f (Some loc) st) in
  (trim body = [] ->
   exists message,
     thrown = Throw (errors.ServerAccessKeyInvalid message None) /\
     message = str "Got empty config from dynamic key." /\
     includes message (str "empty config") = true) /\
  (trim body <> [] ->
   forall cause, parseTunnelConfig (trim body) = Rejected cause ->
     (instanceof cause SessionProviderError = true ->
      thrown = Throw (errors.Value cause)) /\
     (instanceof cause SessionProviderError = false ->
      exists message,
        thrown = Throw (errors.ServerAccessKeyInvalid message (Some cause)))).
Proof.
  intros Hfetch thrown. subst thrown. run. rewrite Hfetch. cbn [fst snd].
  split.
  - intros ->. cbn. eexists. repeat split.
  - intros Hbody cause Hparse.
    destruct (trim body) as [|c rest] eqn:E; [congruence|].
    cbn [truthy negb]. rewrite Hparse.
    split; intros ->; cbn; eauto.
Qed.

(** ** [connect] *)

(** The calls [connect()] makes on a static server: [start] and nothing
    else, with the stored configuration. *)
Lemma connect_static_calls (s : Server) (w : World) :
  type s = STATIC_CONNECTION ->
  let request := {| request_id := id s; request_name := name s;
                    request_config := staticTunnelConfig s |} in
  calls (snd (call connect s w)) =
  [CallStart request (fst (start (vpnApi s) request w))] /\
  world (snd (call connect s w)) = snd (start (vpnApi s) request w) /\
  this (snd (call connect s w)) = s.
Proof.
  intros Hty request. run. rewrite Hty. cbn.
  fold request. destruct (start (vpnApi s) request w) as [o w1]. cbn.
  destruct o as [[]|cause]; cbn; [auto|].
  destruct (instanceof cause PlatformError); cbn; [auto|].
  destruct (getProp cause "errorCode") as [code|]; cbn; [|auto].
  destruct (truthy code); cbn; [|auto].
  destruct (fromErrorCode code); cbn; auto.
Qed.

(** C1 (as amended). When [start] rejects with [cause] during [connect()]:
    a [PlatformError] is rethrown as it is.  Otherwise, for a [cause] other
    than [undefined] and [null], [cause.errorCode] can be read, and when it
    is truthy, what [errors.fromErrorCode] returns for it is thrown; when it
    is absent or falsy, a [ProxyConnectionFailure] holding [cause] is thrown,
    whose message contains the server's name. *)
Theorem connect_start_failure (s : Server) (w : World)
        (request : StartRequestJson) (cause : JsVal) :
  In (CallStart request (Rejected cause)) (calls (snd (call connect s w))) ->
  let thrown := fst (call connect s w) in
  (instanceof cause PlatformError = true ->
   thrown = Throw (errors.Value cause)) /\
  (instanceof cause PlatformError = false ->
   cause <> JsUndefined -> cause <> JsNull ->
   exists errorCode,
     getProp cause "errorCode" = Some errorCode /\
     (truthy errorCode = true ->
      forall e, fromErrorCode errorCode = Resolved e ->
        thrown = Throw (errors.Value e)) /\
     (truthy errorCode = false ->
      exists message,
        thrown = Throw (errors.ProxyConnectionFailure message cause) /\
        includes message (name s) = true)).
Proof.
  intros Hin thrown. subst thrown. run. crunch.
  all: cbn in Hin; in_calls.
  all: split; [intros Hpe | intros Hpe Hundefined Hnull];
    cbn [fst]; try congruence.
  all: try (exfalso;
            match goal with
            | H : getProp ?c _ = None |- _ =>
              destruct c; solve [discriminate H | congruence]
            end).
  all: eexists; split; [eassumption|];
    split; [intros Hcond e He | intros Hcond]; try congruence.
  all: eexists; split; [reflexivity|]; cbn [name with_displayAddress].
  all: apply includes_app.
Qed.

(** The case the classification of C1 leaves out: on a [start] rejected with
    [undefined] or [null] the read of [cause.errorCode] throws. *)
Lemma connect_start_rejected_nullish (s : Server) (w : World)
      (request : StartRequestJson) (cause : JsVal) :
  In (CallStart request (Rejected cause)) (calls (snd (call connect s w))) ->
  cause = JsUndefined \/ cause = JsNull ->
  fst (call connect s w) = Throw errors.TypeError.
Proof.
  intros Hin Hnullish. run. crunch.
  all: cbn in Hin; in_calls; cbn [fst]; try reflexivity.
  all: match goal with
       | H : instanceof _ _ = true |- _ => discriminate H
       | H : getProp _ _ = Some _ |- _ => discriminate H
       end.
Qed.

(** C5 (as amended). When the fetch of the configuration rejects,
    [connect()] throws the very value the fetcher rejected with, whatever its
    kind, and the server is unchanged: neither [fetchTunnelConfig] nor
    [connect()] wraps it. *)
Theorem connect_fetch_failure (s : Server) (w : World)
        (url : jsstring) (reason : JsVal) :
  In (CallFetch url (Rejected reason)) (calls (snd (call connect s w))) ->
  fst (call connect s w) = Throw (errors.Value reason) /\
  this (snd (call connect s w)) = s.
Proof.
  intros Hin. run. crunch.
  all: cbn in Hin; in_calls.
  split; reflexivity.
Qed.

(** C9. On a server built from a static access key, [connect()] makes one
    call to its collaborators, the engine's [start], and the configuration in
    that request is the one the key embeds, as stored by the constructor:
    nothing is fetched and nothing is transformed. *)
Theorem connect_static_config (vpn : VpnApi) (fetcher : ResourceFetcher)
        (i : jsstring) (n : option jsstring) (key : jsstring)
        (localize : Localizer) (keyName : option jsstring)
        (cfg : TunnelConfigJson) (s : Server) (w : World) :
  parseAccessKey key = Resolved (StaticServiceConfig keyName cfg) ->
  constructor vpn fetcher i n key localize = Ok s ->
  staticTunnelConfig s = Some cfg /\
  exists outcome,
    calls (snd (call connect s w)) =
    [CallStart {| request_id := i; request_name := name s;
                  request_config := Some cfg |} outcome].
Proof.
  expose. intros -> [= <-]. split; [reflexivity|].
  eexists. apply connect_static_calls. reflexivity.
Qed.


(** The constructor on a static key. *)
Lemma constructor_static_address vpn fetcher i n key localize keyName cfg
      (s : Server) :
  parseAccessKey key = Resolved (StaticServiceConfig keyName cfg) ->
  constructor vpn fetcher i n key localize = Ok s ->
  address s = joinHostPort (host (firstHop cfg))
                           (Number_toString (port (firstHop cfg))).
Proof.
  expose. intros -> [= <-]. reflexivity.
Qed.

(** [connect()] on a dynamic server, by whether [start] was reached. *)
Lemma connect_dynamic_address (s : Server) (w : World) :
  type s = DYNAMIC_CONNECTION ->
  let after := snd (call connect s w) in
  (forall request outcome,
      In (CallStart request outcome) (calls after) ->
      exists cfg,
        request_config request = Some cfg /\
        address (this after) =
        joinHostPort (host (firstHop cfg))
                     (Number_toString (port (firstHop cfg)))) /\
  ((forall request outcome,
       ~ In (CallStart request outcome) (calls after)) ->
   address (this after) = address s /\
   exists e, fst (call connect s w) = Throw e).
Proof.
  intros Hty after. subst after. unfold address. run. rewrite Hty.
  crunch.
  all: split;
    [ intros request ? Hin; cbn in Hin; in_calls; eexists; split; reflexivity
    | intros Hnone; try (split; [reflexivity | eexists; reflexivity]) ].
  all: exfalso; eapply Hnone; cbn; right; left; reflexivity.
Qed.


(** C10. The name given by the constructor.  A name argument that is not
    null and not empty is kept; with a null argument a non-empty name
    carried by the access key is kept; when what is left is absent or empty
    the default is used: on a dynamic key the hostname of the
    configuration's location when its port is '443' and
    [joinHostPort(hostname, port)] otherwise; on a static key the localized
    'server-default-name-outline' when the access key contains 'outline=1'
    and the localized 'server-default-name' otherwise. *)
Theorem constructor_name (vpn : VpnApi) (fetcher : ResourceFetcher)
        (i : jsstring) (n : option jsstring) (key : jsstring)
        (localize : Localizer) (cfg : ServiceConfig) (s : Server) :
  parseAccessKey key = Resolved cfg ->
  constructor vpn fetcher i n key localize = Ok s ->
  (forall x, n = Some x -> x <> [] -> name s = x) /\
  (n = None ->
   forall x, ServiceConfig_name cfg = Some x -> x <> [] -> name s = x) /\
  (n = Some [] \/
   (n = None /\
    (ServiceConfig_name cfg = None \/ ServiceConfig_name cfg = Some [])) ->
   match cfg with
   | DynamicServiceConfig _ loc =>
     (URL.port loc = str "443" -> name s = URL.hostname loc) /\
     (URL.port loc <> str "443" ->
      name s = joinHostPort (URL.hostname loc) (URL.port loc))
   | StaticServiceConfig _ _ =>
     (includes key (str "outline=1") = true ->
      name s = localize (str "server-default-name-outline")) /\
     (includes key (str "outline=1") = false ->
      name s = localize (str "server-default-name"))
   end).
Proof.
  expose. intros -> H. cbv zeta in H.
  assert (Hkept : forall x : jsstring,
             x <> [] -> name_is_falsy (Some x) = false)
    by (intros [|c x] Hx; [congruence | reflexivity]).
  repeat split.
  - intros x -> Hx. cbn [nullish_coalesce] in H. rewrite (Hkept x Hx) in H.
    destruct cfg; injection H as <-; reflexivity.
  - intros -> x Hname Hx. cbn [nullish_coalesce] in H. rewrite Hname in H.
    destruct cfg;
      rewrite (Hkept x Hx) in H; injection H as <-; reflexivity.
  - intros Hempty.
    assert (Hfalsy : name_is_falsy
                       (nullish_coalesce n (ServiceConfig_name cfg)) = true)
      by (destruct Hempty as [-> | [-> [-> | ->]]]; reflexivity).
    rewrite Hfalsy in H.
    destruct cfg as [? loc|? tc]; injection H as <-; cbn [name].
    + split.
      * intros Hp. rewrite Hp. reflexivity.
      * intros Hp. destruct (jsstring_eqb (URL.port loc) (str "443")) eqn:E;
          [apply jsstring_eqb_eq in E; contradiction | reflexivity].
    + split; intros ->; reflexivity.
Qed.

End Properties.

(** ** The first hop on display *)

Section FirstHop.

Context {World : Type}.
Variable defaultProxyPort : jsstring.
Variable parseAccessKey : jsstring -> Outcome ServiceConfig.
Variable parseTunnelConfig : jsstring -> Outcome TunnelConfigJson.
Variable fromErrorCode : JsVal -> Outcome JsVal.

Lemma joinHostPort_displays (h0 : EndpointAddress) :
  displays defaultProxyPort h0
           (net.joinHostPort defaultProxyPort (host h0)
                             (Number_toString (port h0))).
Proof.
  unfold displays, net.joinHostPort.
  destruct (jsstring_eqb (Number_toString (port h0)) defaultProxyPort) eqn:E.
  - apply jsstring_eqb_eq in E. split; [reflexivity | contradiction].
  - split; [|reflexivity]. intros H. apply jsstring_eqb_eq in H. congruence.
Qed.

(** C4. With [net.joinHostPort] as the spec describes it, [displayAddress]
    is the display of the first hop both times it is computed.  On a static
    key the constructor returns a server, whose address is the display of
    the first hop of the configuration the key embeds.  On a dynamic server
    whose document is fetched and parsed, [connect()] leaves the display of
    the first hop of the parsed configuration, which is the one it submits
    to [start].  The display is host:port, and the host alone when the port
    is the default proxy port. *)
Theorem displayAddress_first_hop :
  (forall vpn fetcher i n key localize keyName cfg,
      parseAccessKey key = Resolved (StaticServiceConfig keyName cfg) ->
      exists s : @OutlineServer World,
        constructor parseAccessKey (net.joinHostPort defaultProxyPort)
                    vpn fetcher i n key localize = Ok s /\
        type s = STATIC_CONNECTION /\
        displays defaultProxyPort (firstHop cfg) (address s)) /\
  (forall (s : @OutlineServer World) (w w' : World) loc body cfg,
      type s = DYNAMIC_CONNECTION ->
      tunnelConfigLocation s = Some loc ->
      fetch (urlFetcher s) (URL.toString loc) w = (Resolved body, w') ->
      trim body <> [] ->
      parseTunnelConfig (trim body) = Resolved cfg ->
      let after :=
          snd (call (connect parseTunnelConfig
                             (net.joinHostPort defaultProxyPort)
                             fromErrorCode) s w) in
      (exists request outcome,
          In (CallStart request outcome) (calls after) /\
          request_config request = Some cfg) /\
      displays defaultProxyPort (firstHop cfg) (address (this after))) /\
  (forall (s : @OutlineServer World) (w : World) request outcome cfg,
      type s = DYNAMIC_CONNECTION ->
      let after :=
          snd (call (connect parseTunnelConfig
                             (net.joinHostPort defaultProxyPort)
                             fromErrorCode) s w) in
      In (CallStart request outcome) (calls after) ->
      request_config request = Some cfg ->
      displays defaultProxyPort (firstHop cfg) (address (this after))).
Proof.
  split; [|split].
  - intros vpn fetcher i n key localize keyName cfg Hkey.
    expose. rewrite Hkey. eexists. split; [reflexivity|].
    split; [reflexivity|]. apply joinHostPort_displays.
  - intros s w w' loc body cfg Hty Hloc Hfetch Hbody Hparse after.
    subst after. unfold address. run. rewrite Hty, Hloc.
    cbn [this world calls fst snd]. rewrite Hfetch.
    destruct (trim body) as [|c rest] eqn:Htrim; [contradiction|].
    cbn [truthy negb fst snd this world calls]. rewrite Hparse.
    crunch.
    all: split; [do 2 eexists; cbn; eauto | apply joinHostPort_displays].
  - intros s w request outcome cfg Hty after Hin Hcfg.
    destruct (connect_dynamic_address parseTunnelConfig
                (net.joinHostPort defaultProxyPort) fromErrorCode s w Hty)
      as [Hstarted _].
    destruct (Hstarted request outcome Hin) as (cfg' & Hcfg' & Haddr).
    assert (cfg' = cfg) as -> by congruence.
    subst after. rewrite Haddr. apply joinHostPort_displays.
Qed.

End FirstHop.

(** * Further properties of the class *)

(** Unfolds a caller's step into the method it calls. *)
Ltac unfold_invoke := unfold invoke.

(** Unfolds a caller's sequence step and the methods. *)
Ltac run_all := unfold invoke, checkRunning, fresh in *; run.

Section Behaviour.

Context {World : Type}.
Variable parseAccessKey : jsstring -> Outcome ServiceConfig.
Variable parseTunnelConfig : jsstring -> Outcome TunnelConfigJson.
Variable joinHostPort : jsstring -> jsstring -> jsstring.
Variable fromErrorCode : JsVal -> Outcome JsVal.

Local Abbreviation Server := (@OutlineServer World).
Local Abbreviation connect :=
  (connect (World := World) parseTunnelConfig joinHostPort fromErrorCode).
Local Abbreviation fetchTunnelConfig :=
  (fetchTunnelConfig (World := World) parseTunnelConfig).
Local Abbreviation constructor :=
  (constructor (World := World) parseAccessKey joinHostPort).
Local Abbreviation invoke :=
  (invoke (World := World) parseTunnelConfig joinHostPort fromErrorCode).
Local Abbreviation session :=
  (session (World := World) parseTunnelConfig joinHostPort fromErrorCode).

(** A method reads nothing from the call log and only appends to it. *)
Lemma invoke_log (m : Method) (st : Store) :
  let r := call (invoke m) (this st) (world st) in
  invoke m st =
  (fst r, {| this := this (snd r); world := world (snd r);
             calls := calls st ++ calls (snd r) |}).
Proof.
  destruct st as [s w l]. destruct m; run_all; crunch; cbn [app];
    rewrite <- ?app_assoc, ?app_nil_r; reflexivity.
Qed.

(** ** One call of [connect] *)

(** X1. On a dynamic server, when [fetchTunnelConfig] throws, [connect()]
    throws the same error, the engine's [start] is not called and the server
    is as it was. *)
Theorem connect_resolution_failure (s : Server) (w : World)
        (e : errors.Exn) (st' : Store) :
  type s = DYNAMIC_CONNECTION ->
  fetchTunnelConfig (urlFetcher s) (tunnelConfigLocation s) (fresh s w)
  = (Throw e, st') ->
  call connect s w = (Throw e, st') /\
  this st' = s /\
  forall request outcome, ~ In (CallStart request outcome) (calls st').
Proof.
  intros Hty Hfetch. run_all. rewrite Hty.
  destruct (tunnelConfigLocation s) as [loc|]; cbn in *.
  - destruct (fetch (urlFetcher s) (URL.toString loc) w) as [[body|v] w1];
      cbn in *.
    + destruct (trim body); cbn in *.
      * injection Hfetch as <- <-. cbn. repeat split.
        intros ? ? [H|[]]. discriminate H.
      * destruct (parseTunnelConfig (n :: j)) as [cfg|cause]; cbn in *;
          [discriminate|].
        destruct (instanceof cause SessionProviderError); cbn in *;
          injection Hfetch as <- <-; cbn; repeat split;
            intros ? ? [H|[]]; discriminate H.
    + injection Hfetch as <- <-. cbn. repeat split.
      intros ? ? [H|[]]. discriminate H.
  - injection Hfetch as <- <-. cbn. repeat split. intros ? ? [].
Qed.

(** X2. On a dynamic server whose configuration document is blank (white
    space only, or empty), [connect()] throws [ServerAccessKeyInvalid] with
    the message "Got empty config from dynamic key.", after the fetch alone:
    [start] is not called and the server is as it was. *)
Theorem connect_blank_document (s : Server) (w w' : World) (loc : URL.t)
        (body : jsstring) :
  type s = DYNAMIC_CONNECTION ->
  tunnelConfigLocation s = Some loc ->
  fetch (urlFetcher s) (URL.toString loc) w = (Resolved body, w') ->
  forallb isWhiteSpace body = true ->
  call connect s w =
  (Throw (errors.ServerAccessKeyInvalid
            (str "Got empty config from dynamic key.") None),
   {| this := s; world := w';
      calls := [CallFetch (URL.toString loc) (Resolved body)] |}).
Proof.
  intros Hty Hloc Hfetch Hblank. apply trim_nil in Hblank.
  run_all. rewrite Hty, Hloc. cbn. rewrite Hfetch. cbn. rewrite Hblank.
  reflexivity.
Qed.

(** X3. [connect()] returns exactly when the engine's [start] was called
    and resolved. *)
Theorem connect_succeeds_iff (s : Server) (w : World) :
  fst (call connect s w) = Ok tt <->
  exists request,
    In (CallStart request (Resolved tt)) (calls (snd (call connect s w))).
Proof.
  split.
  - intros H. run_all. crunch.
    all: cbn in H; try discriminate H.
    all: repeat match goal with u : unit |- _ => destruct u end.
    all: eexists; cbn; eauto.
  - intros [request Hin]. run_all. crunch.
    all: cbn in Hin; in_calls; reflexivity.
Qed.

(** X4. Every request [connect()] submits to [start] carries the server's
    [id] and [name].  On a static server its configuration is the stored
    one; on a dynamic server it is what [parseTunnelConfig] returned for the
    trimmed body fetched from [tunnelConfigLocation]. *)
Theorem connect_request (s : Server) (w : World)
        (request : StartRequestJson) (outcome : Outcome unit) :
  In (CallStart request outcome) (calls (snd (call connect s w))) ->
  request_id request = id s /\
  request_name request = name s /\
  match type s with
  | STATIC_CONNECTION => request_config request = staticTunnelConfig s
  | DYNAMIC_CONNECTION =>
    exists loc body cfg,
      tunnelConfigLocation s = Some loc /\
      In (CallFetch (URL.toString loc) (Resolved body))
         (calls (snd (call connect s w))) /\
      parseTunnelConfig (trim body) = Resolved cfg /\
      request_config request = Some cfg
  end.
Proof.
  run_all. crunch.
  all: intros Hin; cbn in Hin; in_calls.
  all: cbn; repeat split.
  all: do 3 eexists; repeat split; cbn; eauto.
Qed.

(** X5. [connect()] on a dynamic server resolves the configuration afresh:
    its first call is a fetch of [tunnelConfigLocation]; [start] is called
    at most once, and only after that fetch resolved. *)
Theorem connect_dynamic_calls (s : Server) (w : World) (loc : URL.t) :
  type s = DYNAMIC_CONNECTION ->
  tunnelConfigLocation s = Some loc ->
  let log := calls (snd (call connect s w)) in
  (exists outcome, log = [CallFetch (URL.toString loc) outcome]) \/
  (exists body request outcome,
      log = [CallFetch (URL.toString loc) (Resolved body);
             CallStart request outcome]).
Proof.
  intros Hty Hloc log. subst log. run_all. rewrite Hty, Hloc. crunch.
  all: cbn; eauto.
Qed.

(** ** One call of [disconnect] *)

(** X6. [disconnect()] makes one call, the engine's [stop] with the server's
    [id], on a static server as on a dynamic one and whatever
    [displayAddress] is; it throws nothing but [RegularNativeError]. *)
Theorem disconnect_calls (s : Server) (w : World) :
  let after := call disconnect s w in
  calls (snd after) = [CallStop (id s) (fst (stop (vpnApi s) (id s) w))] /\
  world (snd after) = snd (stop (vpnApi s) (id s) w) /\
  forall e, fst after = Throw e -> e = errors.RegularNativeError.
Proof.
  run_all. destruct (stop (vpnApi s) (id s) w) as [[[]|cause] w1]; cbn.
  - destruct (type s); cbn; repeat split; discriminate.
  - repeat split. intros e [= <-]. reflexivity.
Qed.

(** ** The constructor *)

(** X7. A server the constructor returns is well formed, with the variant
    of the parsed key: a dynamic key gives a dynamic server holding its
    location and no configuration, a static key a static server holding its
    configuration and no location.  It keeps the collaborators, the [id] and
    the access key it was given, and no [errorMessageId]. *)
Theorem constructor_wellFormed vpn fetcher i n key localize (s : Server) :
  constructor vpn fetcher i n key localize = Ok s ->
  wellFormed s /\
  vpnApi s = vpn /\ urlFetcher s = fetcher /\ id s = i /\
  accessKey s = key /\ errorMessageId s = None /\
  match parseAccessKey key with
  | Resolved (DynamicServiceConfig _ loc) =>
    type s = DYNAMIC_CONNECTION /\ tunnelConfigLocation s = Some loc
  | Resolved (StaticServiceConfig _ cfg) =>
    type s = STATIC_CONNECTION /\ staticTunnelConfig s = Some cfg
  | Rejected _ => False
  end.
Proof.
  expose. destruct (parseAccessKey key) as [[? loc|? cfg]|v];
    intros [= <-]; unfold wellFormed; cbn; repeat split; discriminate.
Qed.

(** ** Sequences of calls *)

Lemma frames_invoke (m : Method) : frames (invoke m).
Proof.
  destruct m; unfold_invoke.
  - apply frames_connect.
  - apply frames_disconnect.
  - unfold checkRunning. frames.
Qed.

Lemma session_frame (ms : list Method) (st : Store) :
  same_but_address (this st) (this (session ms st)).
Proof.
  revert st. induction ms as [|m ms IH]; intros st; cbn.
  - apply same_but_address_refl.
  - eapply same_but_address_trans; [apply frames_invoke | apply IH].
Qed.

Lemma keeps_fields_wellFormed (s s' : Server) :
  keeps_fields s s' -> wellFormed s -> wellFormed s'.
Proof.
  unfold keeps_fields, wellFormed. intros (_ & -> & _ & _ & -> & -> & _).
  trivial.
Qed.

Lemma keeps_fields_trans (s1 s2 s3 : Server) :
  keeps_fields s1 s2 -> keeps_fields s2 s3 -> keeps_fields s1 s3.
Proof.
  unfold keeps_fields. intuition congruence.
Qed.

(** X8. Whatever sequence of [connect()], [disconnect()] and
    [checkRunning()] is called on a server, and however each call ends, its
    [id], [type], [name], [accessKey], [tunnelConfigLocation],
    [staticTunnelConfig] and [errorMessageId] stay what they were; a well
    formed server stays well formed. *)
Theorem session_keeps_fields (s : Server) (w : World) (ms : list Method) :
  keeps_fields s (this (session ms (fresh s w))) /\
  (wellFormed s -> wellFormed (this (session ms (fresh s w)))).
Proof.
  assert (H : keeps_fields s (this (session ms (fresh s w))))
    by apply same_but_address_keeps_fields, (session_frame ms (fresh s w)).
  split; [exact H | apply keeps_fields_wellFormed, H].
Qed.

Lemma invoke_static (m : Method) (st : Store) :
  type (this st) = STATIC_CONNECTION ->
  this (snd (invoke m st)) = this st.
Proof.
  destruct st as [s w l]. destruct m; run_all; intros Hty; rewrite ?Hty;
    crunch; try congruence; reflexivity.
Qed.

Lemma session_static (ms : list Method) (s : Server) (w : World) :
  type s = STATIC_CONNECTION ->
  this (session ms (fresh s w)) = s.
Proof.
  intros Hty. change s with (this (fresh s w)) at 2.
  change s with (this (fresh s w)) in Hty.
  generalize dependent (fresh s w). clear s w.
  induction ms as [|m ms IH]; intros st Hty; cbn; [reflexivity|].
  rewrite IH; rewrite invoke_static; auto.
Qed.

(** X9. A static server is immutable: no sequence of [connect()],
    [disconnect()] and [checkRunning()], succeeding or failing, changes any
    of its fields; in particular its address is the one set by the
    constructor. *)
Theorem static_server_immutable (s : Server) (w : World)
        (ms : list Method) :
  type s = STATIC_CONNECTION ->
  this (session ms (fresh s w)) = s.
Proof.
  intros Hty. apply session_static, Hty.
Qed.

(** The requests one method submits to [start]. *)
Lemma invoke_start_request (m : Method) (s : Server) (w : World)
      (request : StartRequestJson) (outcome : Outcome unit) :
  In (CallStart request outcome) (calls (snd (call (invoke m) s w))) ->
  request_id request = id s /\
  request_name request = name s /\
  (wellFormed s -> exists cfg, request_config request = Some cfg).
Proof.
  unfold wellFormed. destruct m; run_all; crunch.
  all: intros Hin; cbn in Hin; in_calls.
  all: try match goal with
           | H : CallIsRunning _ _ = _ |- _ => discriminate H
           end.
  all: cbn; repeat split; eauto.
  all: intros [Hcfg _]; destruct (staticTunnelConfig s); [eauto | congruence].
Qed.

(** X10. In any sequence of calls on a well formed server, every request
    submitted to the engine's [start] carries the server's [id] and [name]
    and a configuration: the engine is never started without one. *)
Theorem session_start_requests (s : Server) (w : World) (ms : list Method)
        (request : StartRequestJson) (outcome : Outcome unit) :
  wellFormed s ->
  In (CallStart request outcome) (calls (session ms (fresh s w))) ->
  request_id request = id s /\
  request_name request = name s /\
  exists cfg, request_config request = Some cfg.
Proof.
  intros Hwf.
  assert (Hgen : forall st,
             keeps_fields s (this st) ->
             In (CallStart request outcome) (calls (session ms st)) ->
             In (CallStart request outcome) (calls st) \/
             (request_id request = id s /\
              request_name request = name s /\
              exists cfg, request_config request = Some cfg)).
  { induction ms as [|m ms IH]; intros st Hst Hin; cbn in Hin; [auto|].
    assert (Hst' : keeps_fields s (this (snd (invoke m st)))).
    { eapply keeps_fields_trans; [exact Hst|].
      apply same_but_address_keeps_fields, frames_invoke. }
    destruct (IH _ Hst' Hin) as [Hlog|Hdone]; [|auto].
    rewrite invoke_log in Hlog. cbn in Hlog.
    apply in_app_or in Hlog as [Hold|Hnew]; [auto|]. right.
    apply invoke_start_request in Hnew as (Hid & Hname & Hcfg).
    pose proof (keeps_fields_wellFormed Hst Hwf) as Hwf'.
    destruct Hst as (Hi & Ht & Hn & _).
    rewrite Hid, Hname, Hi, Hn. repeat split.
    apply Hcfg, Hwf'. }
  intros Hin. destruct (Hgen (fresh s w)) as [[]|H]; auto.
  unfold keeps_fields. cbn. repeat split.
Qed.

(** The address one method leaves on a dynamic server. *)
Lemma invoke_address (m : Method) (s : Server) (w : World) :
  type s = DYNAMIC_CONNECTION ->
  let after := snd (call (invoke m) s w) in
  address (this after) = address s \/
  address (this after) = [] \/
  exists request outcome cfg,
    In (CallStart request outcome) (calls after) /\
    request_config request = Some cfg /\
    address (this after) =
    joinHostPort (host (firstHop cfg)) (Number_toString (port (firstHop cfg))).
Proof.
  intros Hty after. subst after. unfold address.
  destruct m; run_all; rewrite ?Hty; crunch; cbn; auto.
  all: right; right; do 3 eexists; cbn.
  all: split; [right; left; reflexivity | split; reflexivity].
Qed.

(** X11. On a dynamic server that starts with an empty address, after any
    sequence of calls the address is either empty or the first hop of a
    configuration that was submitted to the engine's [start]. *)
Theorem dynamic_address_invariant (s : Server) (w : World)
        (ms : list Method) :
  type s = DYNAMIC_CONNECTION ->
  address s = [] ->
  let st := session ms (fresh s w) in
  address (this st) = [] \/
  exists request outcome cfg,
    In (CallStart request outcome) (calls st) /\
    request_config request = Some cfg /\
    address (this st) =
    joinHostPort (host (firstHop cfg)) (Number_toString (port (firstHop cfg))).
Proof.
  intros Hty Haddr.
  change (type (this (fresh s w)) = DYNAMIC_CONNECTION) in Hty.
  assert (Hinv : address (this (fresh s w)) = [] \/
                 exists request outcome cfg,
                   In (CallStart request outcome) (calls (fresh s w)) /\
                   request_config request = Some cfg /\
                   address (this (fresh s w)) =
                   joinHostPort (host (firstHop cfg))
                                (Number_toString (port (firstHop cfg))))
    by (left; exact Haddr).
  generalize dependent (fresh s w). clear s w Haddr.
  induction ms as [|m ms IH]; intros st Hty Hinv; cbn; [exact Hinv|].
  apply IH.
  - pose proof (same_but_address_keeps_fields (frames_invoke m st))
      as (_ & -> & _). exact Hty.
  - rewrite invoke_log. cbn [this calls snd].
    destruct (invoke_address m (this st) (world st) Hty)
      as [Hsame|[Hempty|(request & outcome & cfg & Hin & Hcfg & Hnew)]].
    + rewrite Hsame. destruct Hinv as [Hinv|(request & outcome & cfg & Hin & H)];
        [auto|]. right. exists request, outcome, cfg.
      split; [apply in_or_app; auto | exact H].
    + auto.
    + right. exists request, outcome, cfg.
      split; [apply in_or_app; auto | auto].
Qed.

(** X12. No method reads [displayAddress]: called on the same server with
    another address, each method gives the same result, makes the same
    calls and leaves the world in the same state, and the servers left
    still agree on every other field. *)
Theorem methods_ignore_displayAddress (m : Method) (s : Server)
        (a : jsstring) (w : World) :
  let r := call (invoke m) s w in
  let r' := call (invoke m) (with_displayAddress s a) w in
  fst r' = fst r /\
  world (snd r') = world (snd r) /\
  calls (snd r') = calls (snd r) /\
  keeps_fields (this (snd r)) (this (snd r')).
Proof.
  unfold keeps_fields. destruct m; run_all;
    cbn [type id name vpnApi urlFetcher tunnelConfigLocation
         staticTunnelConfig with_displayAddress];
    crunch;
    cbn [type id name vpnApi urlFetcher tunnelConfigLocation
         staticTunnelConfig errorMessageId accessKey with_displayAddress
         fst snd this world calls] in *;
    repeat split; congruence.
Qed.

(** ** White space around the configuration document *)

Lemma trimStart_app (s t : jsstring) :
  trimStart (s ++ t) =
  if forallb isWhiteSpace s then trimStart t else trimStart s ++ t.
Proof.
  induction s as [|c s IH]; simpl; [reflexivity|].
  destruct (isWhiteSpace c); simpl; [exact IH | reflexivity].
Qed.

Lemma trimEnd_app (s t : jsstring) :
  forallb isWhiteSpace t = true -> trimEnd (s ++ t) = trimEnd s.
Proof.
  intros Ht. unfold trimEnd. rewrite rev_app_distr, trimStart_app.
  rewrite forallb_rev, Ht. reflexivity.
Qed.

(** [trim] drops white space put around a string. *)
Lemma trim_padding (pre s post : jsstring) :
  forallb isWhiteSpace pre = true ->
  forallb isWhiteSpace post = true ->
  trim (pre ++ s ++ post) = trim s.
Proof.
  intros Hpre Hpost. unfold trim at 1.
  rewrite trimStart_app, Hpre, trimStart_app.
  destruct (forallb isWhiteSpace s) eqn:Hs.
  - apply trim_nil in Hs. rewrite Hs.
    apply trimStart_nil in Hpost. rewrite Hpost. reflexivity.
  - apply trimEnd_app, Hpost.
Qed.

(** X13. White space around the fetched document does not count:
    [fetchTunnelConfig] returns or throws the same on a body and on that
    body with white space before and after it. *)
Theorem fetchTunnelConfig_ignores_padding (f1 f2 : ResourceFetcher)
        (loc : URL.t) (st : Store) (body pre post : jsstring)
        (w1 w2 : World) :
  fetch f1 (URL.toString loc) (world st) = (Resolved body, w1) ->
  fetch f2 (URL.toString loc) (world st)
  = (Resolved (pre ++ body ++ post), w2) ->
  forallb isWhiteSpace pre = true ->
  forallb isWhiteSpace post = true ->
  fst (fetchTunnelConfig f2 (Some loc) st)
  = fst (fetchTunnelConfig f1 (Some loc) st).
Proof.
  intros H1 H2 Hpre Hpost. run_all. rewrite H1, H2. cbn [fst snd].
  rewrite (trim_padding _ _ _ Hpre Hpost).
  destruct (trim body); cbn; [reflexivity|].
  destruct (parseTunnelConfig (n :: j)) as [cfg|cause]; cbn; [reflexivity|].
  destruct (instanceof cause SessionProviderError); reflexivity.
Qed.

(** ** The two ways to an address *)

(** X14. A dynamic server that has submitted a configuration to [start]
    shows the address a static server built from a key embedding that same
    configuration shows. *)
Theorem address_static_dynamic_agree vpn fetcher i n key localize keyName
        (cfg : TunnelConfigJson) (static dynamic : Server) (w : World)
        (request : StartRequestJson) (outcome : Outcome unit) :
  parseAccessKey key = Resolved (StaticServiceConfig keyName cfg) ->
  constructor vpn fetcher i n key localize = Ok static ->
  type dynamic = DYNAMIC_CONNECTION ->
  In (CallStart request outcome) (calls (snd (call connect dynamic w))) ->
  request_config request = Some cfg ->
  address (this (snd (call connect dynamic w))) = address static.
Proof.
  intros Hkey Hnew Hty Hin Hcfg.
  rewrite (constructor_static_address _ _ _ _ _ _ _ _ Hkey Hnew).
  destruct (connect_dynamic_address parseTunnelConfig joinHostPort
              fromErrorCode dynamic w Hty) as [Hstarted _].
  destruct (Hstarted request outcome Hin) as (cfg' & Hcfg' & ->).
  congruence.
Qed.

(** ** What [fetchTunnelConfig] returns *)

(** X15. [fetchTunnelConfig] returns a configuration exactly when the fetch
    resolved with a body that is not blank and [parseTunnelConfig] returned
    that configuration for the trimmed body; the parser is never given an
    empty document. *)
Theorem fetchTunnelConfig_returns_iff (f : ResourceFetcher) (loc : URL.t)
        (st : Store) (cfg : TunnelConfigJson) :
  fst (fetchTunnelConfig f (Some loc) st) = Ok cfg <->
  exists body,
    fst (fetch f (URL.toString loc) (world st)) = Resolved body /\
    trim body <> [] /\
    parseTunnelConfig (trim body) = Resolved cfg.
Proof.
  run_all.
  destruct (fetch f (URL.toString loc) (world st)) as [[body|v] w1];
    cbn [fst snd].
  - destruct (trim body) as [|c rest] eqn:Htrim; cbn [truthy negb].
    + split; [discriminate|]. intros (b & [= <-] & Hb & _).
      elim Hb. exact Htrim.
    + destruct (parseTunnelConfig (c :: rest)) as [cfg'|cause] eqn:Hparse.
      * split.
        -- intros [= <-]. exists body. rewrite Htrim.
           repeat split; [discriminate | exact Hparse].
        -- intros (b & [= <-] & _ & Hb). rewrite Htrim, Hparse in Hb.
           injection Hb as <-. reflexivity.
      * split.
        -- destruct (instanceof cause SessionProviderError); discriminate.
        -- intros (b & [= <-] & _ & Hb). rewrite Htrim, Hparse in Hb.
           discriminate Hb.
  - split; [discriminate|]. intros (b & H & _). discriminate H.
Qed.

(** ** Back to the state after construction *)

(** X16. A [disconnect()] whose [stop] succeeds brings a server back to
    what the constructor built, whatever calls came before and however they
    ended. *)
Theorem disconnect_restores vpn fetcher i n key localize (s : Server)
        (w w' : World) (ms : list Method) :
  constructor vpn fetcher i n key localize = Ok s ->
  let st := session ms (fresh s w) in
  stop vpn i (world st) = (Resolved tt, w') ->
  fst (invoke Disconnect st) = Ok tt /\
  this (snd (invoke Disconnect st)) = s.
Proof.
  intros Hnew st Hstop.
  assert (Hs : this st = with_displayAddress s (displayAddress (this st)))
    by apply (session_frame ms (fresh s w)).
  assert (Hfields : vpnApi s = vpn /\ id s = i /\
                    (type s = DYNAMIC_CONNECTION -> displayAddress s = []))
    by (revert Hnew; expose;
        destruct (parseAccessKey key) as [[? loc|? cfg]|v];
        intros [= <-]; cbn; repeat split; discriminate).
  destruct Hfields as (Hvpn & Hid & Haddr).
  assert (Hstatic : type s = STATIC_CONNECTION -> this st = s)
    by (intros Hty; apply session_static, Hty).
  unfold_invoke. destruct st as [s' w0 l]. cbn [this world] in *.
  run_all. rewrite Hs. cbn [vpnApi id type with_displayAddress].
  rewrite Hvpn, Hid, Hstop. cbn.
  destruct (type s) eqn:Hty; cbn; split; try reflexivity.
  - rewrite <- (Haddr eq_refl). destruct s; reflexivity.
  - rewrite <- Hs. auto.
Qed.

End Behaviour.

(** * The properties at work on the concrete collaborators *)

Module Checks.

Import Example.

Ltac in_log := vm_compute; auto.

(** C1 as it is stated fails on an error code that is present but falsy: a
    rejection carrying [errorCode: 0] is not mapped through
    [errors.fromErrorCode], [connect()] throws a [ProxyConnectionFailure]. *)
Lemma errorCode_zero_not_mapped :
  let cause := nativeError 0 in
  let s := staticServer (vpnRejecting cause) in
  In (CallStart staticRequest (Rejected cause))
     (calls (snd (call connect s tt))) /\
  instanceof cause PlatformError = false /\
  getProp cause "errorCode" = Some (JsNum 0) /\
  fromErrorCode (JsNum 0) = Resolved UnexpectedPluginError /\
  fst (call connect s tt) <> Throw (errors.Value UnexpectedPluginError) /\
  fst (call connect s tt) =
  Throw (errors.ProxyConnectionFailure (str "Failed to connect to server Home.")
                                       cause).
Proof.
  cbv zeta. repeat split; try (vm_compute; auto; fail).
  vm_compute. discriminate.
Qed.

(** The three classes of [start] failure, on a static server. *)
Lemma connect_start_failure_witness :
  (let s := staticServer (vpnRejecting platformError) in
   fst (call connect s tt) = Throw (errors.Value platformError)) /\
  (let s := staticServer (vpnRejecting (nativeError 7)) in
   fst (call connect s tt) = Throw (errors.Value ErrorX)) /\
  (let s := staticServer (vpnRejecting plainError) in
   exists message,
     fst (call connect s tt) =
     Throw (errors.ProxyConnectionFailure message plainError) /\
     includes message (name s) = true).
Proof.
  split; [|split]; intros s.
  - assert (Hin : In (CallStart staticRequest (Rejected platformError))
                     (calls (snd (call connect s tt)))) by in_log.
    exact (proj1 (connect_start_failure parseTunnelConfig joinHostPort
                    fromErrorCode s tt staticRequest platformError Hin)
                 eq_refl).
  - assert (Hin : In (CallStart staticRequest (Rejected (nativeError 7)))
                     (calls (snd (call connect s tt)))) by in_log.
    destruct (proj2 (connect_start_failure parseTunnelConfig joinHostPort
                       fromErrorCode s tt staticRequest (nativeError 7) Hin)
                    eq_refl)
      as (errorCode & Hcode & Hmapped & _); [discriminate | discriminate |].
    injection Hcode as <-.
    exact (Hmapped eq_refl ErrorX eq_refl).
  - assert (Hin : In (CallStart staticRequest (Rejected plainError))
                     (calls (snd (call connect s tt)))) by in_log.
    destruct (proj2 (connect_start_failure parseTunnelConfig joinHostPort
                       fromErrorCode s tt staticRequest plainError Hin)
                    eq_refl)
      as (errorCode & Hcode & _ & Hwrapped); [discriminate | discriminate |].
    injection Hcode as <-.
    exact (Hwrapped eq_refl).
Defined.

(** An all-blank body, a body the parser rejects with a
    [SessionProviderError], and one it rejects with a plain error. *)
Lemma fetchTunnelConfig_errors_witness :
  let st f := {| this := dynamicServer vpnAccepting f; world := tt;
                 calls := [] |} in
  (exists message,
      fst (fetchTunnelConfig parseTunnelConfig (fetcherReturning (str "  "))
                             (Some location) (st (fetcherReturning (str "  "))))
      = Throw (errors.ServerAccessKeyInvalid message None) /\
      message = str "Got empty config from dynamic key." /\
      includes message (str "empty config") = true) /\
  fst (fetchTunnelConfig parseTunnelConfig
                         (fetcherReturning (str " error: {} "))
                         (Some location)
                         (st (fetcherReturning (str " error: {} "))))
  = Throw (errors.Value providerError) /\
  (exists message,
      fst (fetchTunnelConfig parseTunnelConfig (fetcherReturning (str "{"))
                             (Some location) (st (fetcherReturning (str "{"))))
      = Throw (errors.ServerAccessKeyInvalid message (Some plainError))).
Proof.
  intros st. split; [|split].
  - refine (proj1 (fetchTunnelConfig_errors parseTunnelConfig
                     (fetcherReturning (str "  ")) location (st _)
                     (body := str "  ") (w' := tt) eq_refl) _).
    reflexivity.
  - refine (proj1 (proj2 (fetchTunnelConfig_errors parseTunnelConfig
                            (fetcherReturning (str " error: {} ")) location
                            (st _) (body := str " error: {} ") (w' := tt)
                            eq_refl)
                         _ providerError eq_refl) eq_refl).
    vm_compute. discriminate.
  - refine (proj2 (proj2 (fetchTunnelConfig_errors parseTunnelConfig
                            (fetcherReturning (str "{")) location
                            (st _) (body := str "{") (w' := tt) eq_refl)
                         _ plainError eq_refl) eq_refl).
    vm_compute. discriminate.
Defined.



(** C5 as it is stated fails on a fetch rejected with a value that is no
    [SessionProviderError]: [connect()] throws that value, not an error
    constructed around it. *)
Lemma fetch_rejection_passes_through :
  let s := dynamicServer vpnAccepting (fetcherRejecting plainError) in
  In (CallFetch (URL.toString location) (Rejected plainError))
     (calls (snd (call connect s tt))) /\
  instanceof plainError SessionProviderError = false /\
  fst (call connect s tt) = Throw (errors.Value plainError) /\
  ~ (exists e, fst (call connect s tt) = Throw e /\
               errors.wraps e plainError).
Proof.
  cbv zeta. repeat split; try (vm_compute; auto; fail).
  intros (e & He & Hwraps). vm_compute in He. injection He as <-.
  exact Hwraps.
Qed.

(** A fetch rejected with a [SessionProviderError]. *)
Lemma connect_fetch_failure_witness :
  let s := dynamicServer vpnAccepting (fetcherRejecting providerError) in
  In (CallFetch (URL.toString location) (Rejected providerError))
     (calls (snd (call connect s tt))) /\
  fst (call connect s tt) = Throw (errors.Value providerError) /\
  this (snd (call connect s tt)) = s.
Proof.
  intros s.
  assert (Hin : In (CallFetch (URL.toString location) (Rejected providerError))
                   (calls (snd (call connect s tt)))) by in_log.
  split; [exact Hin|].
  exact (connect_fetch_failure parseTunnelConfig joinHostPort fromErrorCode
                               s tt _ _ Hin).
Defined.

(** A connected dynamic server whose engine refuses to stop. *)
Lemma disconnect_stop_failure_witness :
  let s := with_displayAddress
             (dynamicServer (vpnRejecting (nativeError 7))
                            (fetcherReturning []))
             (str "example.com:8080") in
  stop (vpnApi s) (id s) tt = (Rejected (nativeError 7), tt) /\
  fst (call disconnect s tt) = Throw errors.RegularNativeError /\
  address (this (snd (call disconnect s tt))) = str "example.com:8080".
Proof.
  intros s. split; [reflexivity|].
  exact (disconnect_stop_failure s tt (w' := tt) (cause := nativeError 7)
                                 eq_refl).
Defined.

(** A dynamic and a static server, both showing an address, disconnected. *)
Lemma disconnect_stop_success_witness :
  let d := with_displayAddress
             (dynamicServer vpnAccepting (fetcherReturning []))
             (str "example.com:8080") in
  let s := staticServer vpnAccepting in
  (stop (vpnApi d) (id d) tt = (Resolved tt, tt) /\
   address (this (snd (call disconnect d tt))) = []) /\
  (stop (vpnApi s) (id s) tt = (Resolved tt, tt) /\
   address (this (snd (call disconnect s tt))) = str "example.com:8080").
Proof.
  intros d s. split; (split; [reflexivity|]).
  - exact (proj1 (proj2 (disconnect_stop_success d tt (w' := tt) eq_refl))
                 eq_refl).
  - exact (proj2 (proj2 (disconnect_stop_success s tt (w' := tt) eq_refl))
                 eq_refl).
Defined.

(** The static server as the constructor builds it, then connected. *)
Lemma connect_static_config_witness :
  let s := staticServer (vpnRejecting plainError) in
  parseAccessKey staticKey = Resolved (StaticServiceConfig None tunnelConfig) /\
  newServer (vpnRejecting plainError) (fetcherRejecting plainError)
            (str "server-1") (Some (str "Home")) staticKey = Ok s /\
  staticTunnelConfig s = Some tunnelConfig /\
  exists outcome,
    calls (snd (call connect s tt)) = [CallStart staticRequest outcome].
Proof.
  intros s. split; [reflexivity|]. split; [reflexivity|].
  exact (connect_static_config parseAccessKey parseTunnelConfig joinHostPort
           fromErrorCode (vpnRejecting plainError)
           (fetcherRejecting plainError) (str "server-1")
           (Some (str "Home")) staticKey localize (keyName := None)
           (cfg := tunnelConfig) (s := s) tt eq_refl eq_refl).
Defined.

(** A name given, a name in the key, and the two defaults. *)
Lemma constructor_name_witness :
  let new := newServer vpnAccepting (fetcherReturning []) (str "server-2") in
  (exists s, new (Some (str "Home")) staticKey = Ok s /\
             name s = str "Home") /\
  (exists s, new None (staticKey ++ str "#Office") = Ok s /\
             name s = str "Office") /\
  (exists s, new None dynamicKey = Ok s /\
             name s = joinHostPort (str "conf.example.org") (str "8443")) /\
  (exists s, new (Some []) staticKey = Ok s /\
             name s = localize (str "server-default-name")).
Proof.
  intros new.
  pose proof (fun n key cfg s =>
                constructor_name parseAccessKey joinHostPort vpnAccepting
                  (fetcherReturning []) (str "server-2") n key localize
                  (cfg := cfg) (s := s)) as H.
  repeat split; (eexists; split; [reflexivity|]).
  - refine (proj1 (H (Some (str "Home")) staticKey _ _ eq_refl eq_refl)
                  _ eq_refl _).
    discriminate.
  - refine (proj1 (proj2 (H None (staticKey ++ str "#Office") _ _
                            eq_refl eq_refl))
                  eq_refl (str "Office") eq_refl _).
    discriminate.
  - refine (proj2 (proj2 (proj2 (H None dynamicKey _ _ eq_refl eq_refl))
                         (or_intror (conj eq_refl (or_introl eq_refl))))
                  _).
    discriminate.
  - exact (proj2 (proj2 (proj2 (H (Some []) staticKey _ _ eq_refl eq_refl))
                        (or_introl eq_refl))
                 eq_refl).
Defined.

(** A first hop on port 8080 and one on the default proxy port 443, each
    from a static key through the constructor and from a document through
    [connect()]. *)
Lemma displayAddress_first_hop_witness :
  let new parse key :=
      constructor parse joinHostPort vpnAccepting
                  (fetcherRejecting plainError) (str "server-1")
                  (Some (str "Home")) key localize in
  let d body := dynamicServer (vpnRejecting plainError)
                              (fetcherReturning body) in
  (exists s, new parseAccessKey staticKey = Ok s /\
             address s = str "example.com:8080") /\
  (exists s, new parseAccessKey443 staticKey443 = Ok s /\
             address s = str "example.com") /\
  address (this (snd (call connect (d (str " transport: ok ")) tt)))
  = str "example.com:8080" /\
  address (this (snd (call connect (d (str "transport: 443")) tt)))
  = str "example.com".
Proof.
  intros new d.
  pose proof (fun parse =>
                displayAddress_first_hop (str "443") parse parseTunnelConfig
                                         fromErrorCode (World := World))
    as H.
  split; [|split; [|split]].
  - destruct (proj1 (H parseAccessKey) vpnAccepting
                    (fetcherRejecting plainError) (str "server-1")
                    (Some (str "Home")) staticKey localize None tunnelConfig
                    eq_refl)
      as (s & Hnew & _ & _ & Hfull).
    exists s. split; [exact Hnew|]. apply Hfull. vm_compute. discriminate.
  - destruct (proj1 (H parseAccessKey443) vpnAccepting
                    (fetcherRejecting plainError) (str "server-1")
                    (Some (str "Home")) staticKey443 localize None
                    tunnelConfig443 eq_refl)
      as (s & Hnew & _ & Helided & _).
    exists s. split; [exact Hnew|]. apply Helided. reflexivity.
  - destruct (proj1 (proj2 (H parseAccessKey))
                    (d (str " transport: ok ")) tt tt location
                    (str " transport: ok ") tunnelConfig
                    eq_refl eq_refl eq_refl)
      as (_ & _ & Hfull); [vm_compute; discriminate | reflexivity |].
    apply Hfull. vm_compute. discriminate.
  - destruct (proj1 (proj2 (H parseAccessKey))
                    (d (str "transport: 443")) tt tt location
                    (str "transport: 443") tunnelConfig443
                    eq_refl eq_refl eq_refl)
      as (_ & Helided & _); [vm_compute; discriminate | reflexivity |].
    apply Helided. reflexivity.
Defined.

(** ** The further properties, on the same collaborators *)

(** A document the parser rejects: the fetch is the only call. *)
Lemma connect_resolution_failure_witness :
  let s := dynamicServer vpnAccepting (fetcherReturning (str "{")) in
  let e := errors.ServerAccessKeyInvalid
             (str "Failed to parse VPN information fetched from dynamic access key.")
             (Some plainError) in
  let st' := {| this := s; world := tt;
                calls := [CallFetch (URL.toString location)
                                    (Resolved (str "{"))] |} in
  fetchTunnelConfig parseTunnelConfig (urlFetcher s)
                    (tunnelConfigLocation s) (fresh s tt)
  = (Throw e, st') /\
  call connect s tt = (Throw e, st') /\
  this st' = s /\
  forall request outcome, ~ In (CallStart request outcome) (calls st').
Proof.
  intros s e st'. split; [reflexivity|].
  exact (connect_resolution_failure Example.parseTunnelConfig joinHostPort
           fromErrorCode s tt (e := e) (st' := st') eq_refl eq_refl).
Defined.

(** A document of two spaces. *)
Lemma connect_blank_document_witness :
  let s := dynamicServer vpnAccepting (fetcherReturning (str "  ")) in
  forallb isWhiteSpace (str "  ") = true /\
  call connect s tt =
  (Throw (errors.ServerAccessKeyInvalid
            (str "Got empty config from dynamic key.") None),
   {| this := s; world := tt;
      calls := [CallFetch (URL.toString location) (Resolved (str "  "))] |}).
Proof.
  intros s. split; [reflexivity|].
  exact (connect_blank_document Example.parseTunnelConfig joinHostPort
           fromErrorCode s tt (w' := tt) (loc := location)
           (body := str "  ") eq_refl eq_refl eq_refl eq_refl).
Defined.

(** An engine that starts: [connect()] returns. *)
Lemma connect_succeeds_iff_witness :
  let s := staticServer vpnAccepting in
  In (CallStart staticRequest (Resolved tt)) (calls (snd (call connect s tt)))
  /\ fst (call connect s tt) = Ok tt.
Proof.
  intros s.
  assert (Hin : In (CallStart staticRequest (Resolved tt))
                   (calls (snd (call connect s tt)))) by in_log.
  split; [exact Hin|].
  apply (proj2 (connect_succeeds_iff Example.parseTunnelConfig joinHostPort
                  fromErrorCode s tt)).
  exists staticRequest. exact Hin.
Defined.

(** The request of a dynamic server, from the document it fetched. *)
Lemma connect_request_witness :
  let s := dynamicServer (vpnRejecting plainError)
                         (fetcherReturning (str " transport: ok ")) in
  let request := dynamicRequest tunnelConfig in
  In (CallStart request (Rejected plainError))
     (calls (snd (call connect s tt))) /\
  request_id request = id s /\
  request_name request = name s /\
  exists loc body cfg,
    tunnelConfigLocation s = Some loc /\
    In (CallFetch (URL.toString loc) (Resolved body))
       (calls (snd (call connect s tt))) /\
    Example.parseTunnelConfig (trim body) = Resolved cfg /\
    request_config request = Some cfg.
Proof.
  intros s request.
  assert (Hin : In (CallStart request (Rejected plainError))
                   (calls (snd (call connect s tt)))) by in_log.
  split; [exact Hin|].
  exact (connect_request Example.parseTunnelConfig joinHostPort fromErrorCode
                         s tt request (Rejected plainError) Hin).
Defined.

(** The calls of a dynamic server: a fetch, then [start]. *)
Lemma connect_dynamic_calls_witness :
  let s := dynamicServer (vpnRejecting plainError)
                         (fetcherReturning (str "transport: ok")) in
  let log := calls (snd (call connect s tt)) in
  (exists outcome, log = [CallFetch (URL.toString location) outcome]) \/
  (exists body request outcome,
      log = [CallFetch (URL.toString location) (Resolved body);
             CallStart request outcome]).
Proof.
  intros s.
  exact (connect_dynamic_calls Example.parseTunnelConfig joinHostPort
           fromErrorCode s tt (loc := location) eq_refl eq_refl).
Defined.

(** The static server as the constructor builds it. *)
Lemma constructor_wellFormed_witness :
  let s := staticServer vpnAccepting in
  newServer vpnAccepting (fetcherRejecting plainError) (str "server-1")
            (Some (str "Home")) staticKey = Ok s /\
  wellFormed s /\
  vpnApi s = vpnAccepting /\ urlFetcher s = fetcherRejecting plainError /\
  id s = str "server-1" /\ accessKey s = staticKey /\
  errorMessageId s = None /\
  type s = STATIC_CONNECTION /\ staticTunnelConfig s = Some tunnelConfig.
Proof.
  intros s. split; [reflexivity|].
  exact (constructor_wellFormed Example.parseAccessKey joinHostPort
           vpnAccepting (fetcherRejecting plainError) (str "server-1")
           (Some (str "Home")) staticKey localize (s := s) eq_refl).
Defined.

(** Four calls on a dynamic server whose engine refuses everything. *)
Lemma session_keeps_fields_witness :
  let s := dynamicServer (vpnRejecting plainError)
                         (fetcherReturning (str "transport: ok")) in
  let after := this (Example.session [Connect; CheckRunning; Disconnect;
                                      Connect] (fresh s tt)) in
  wellFormed s /\ keeps_fields s after /\ wellFormed after.
Proof.
  intros s after.
  assert (Hwf : wellFormed s) by (split; [discriminate | reflexivity]).
  destruct (session_keeps_fields Example.parseTunnelConfig joinHostPort
              fromErrorCode s tt
              [Connect; CheckRunning; Disconnect; Connect]) as [Hk Hw].
  split; [exact Hwf|]. split; [exact Hk | exact (Hw Hwf)].
Defined.

(** Four calls on a static server whose engine refuses everything. *)
Lemma static_server_immutable_witness :
  let s := staticServer (vpnRejecting plainError) in
  type s = STATIC_CONNECTION /\
  this (Example.session [Connect; Disconnect; CheckRunning; Connect]
                        (fresh s tt)) = s.
Proof.
  intros s. split; [reflexivity|].
  exact (static_server_immutable Example.parseTunnelConfig joinHostPort
           fromErrorCode s tt [Connect; Disconnect; CheckRunning; Connect]
           eq_refl).
Defined.

(** The second [connect()] of a session submits a full request too. *)
Lemma session_start_requests_witness :
  let s := dynamicServer vpnAccepting
                         (fetcherReturning (str "transport: ok")) in
  let request := dynamicRequest tunnelConfig in
  let log := calls (Example.session [Connect; Disconnect; Connect]
                                    (fresh s tt)) in
  wellFormed s /\
  In (CallStart request (Resolved tt)) log /\
  request_id request = id s /\
  request_name request = name s /\
  exists cfg, request_config request = Some cfg.
Proof.
  intros s request log.
  assert (Hwf : wellFormed s) by (split; [discriminate | reflexivity]).
  assert (Hin : In (CallStart request (Resolved tt)) log) by in_log.
  split; [exact Hwf|]. split; [exact Hin|].
  exact (session_start_requests Example.parseTunnelConfig joinHostPort
           fromErrorCode s tt [Connect; Disconnect; Connect] request
           (Resolved tt) Hwf Hin).
Defined.

(** After one [connect()] the address is the first hop submitted. *)
Lemma dynamic_address_invariant_witness :
  let s := dynamicServer vpnAccepting
                         (fetcherReturning (str "transport: ok")) in
  let st := Example.session [Connect] (fresh s tt) in
  address (this st) = [] \/
  exists request outcome cfg,
    In (CallStart request outcome) (calls st) /\
    request_config request = Some cfg /\
    address (this st) =
    joinHostPort (host (firstHop cfg)) (Number_toString (port (firstHop cfg))).
Proof.
  intros s.
  exact (dynamic_address_invariant Example.parseTunnelConfig joinHostPort
           fromErrorCode s tt [Connect] eq_refl eq_refl).
Defined.

(** The same document, bare and between a tab and a line feed. *)
Lemma fetchTunnelConfig_ignores_padding_witness :
  let body := str "transport: ok" in
  let pre := [9%N] in
  let post := [13%N; 10%N] in
  let st f := fresh (dynamicServer vpnAccepting f) tt in
  fst (fetchTunnelConfig parseTunnelConfig (fetcherReturning (pre ++ body ++ post))
                                 (Some location)
                                 (st (fetcherReturning (pre ++ body ++ post))))
  = fst (fetchTunnelConfig parseTunnelConfig (fetcherReturning body) (Some location)
                                   (st (fetcherReturning (pre ++ body ++ post))))
  /\ fst (fetchTunnelConfig parseTunnelConfig (fetcherReturning body) (Some location)
                                    (st (fetcherReturning body)))
     = Ok tunnelConfig.
Proof.
  intros body pre post st. split; [|reflexivity].
  exact (fetchTunnelConfig_ignores_padding Example.parseTunnelConfig
           (fetcherReturning body) (fetcherReturning (pre ++ body ++ post))
           location (st _) pre post (body := body)
           (w1 := tt) (w2 := tt) eq_refl eq_refl eq_refl eq_refl).
Defined.

(** The dynamic and the static server on the same configuration. *)
Lemma address_static_dynamic_agree_witness :
  let static := staticServer vpnAccepting in
  let dynamic := dynamicServer (vpnRejecting plainError)
                               (fetcherReturning (str "transport: ok")) in
  In (CallStart (dynamicRequest tunnelConfig) (Rejected plainError))
     (calls (snd (call connect dynamic tt))) /\
  address (this (snd (call connect dynamic tt))) = address static.
Proof.
  intros static dynamic.
  assert (Hin : In (CallStart (dynamicRequest tunnelConfig)
                              (Rejected plainError))
                   (calls (snd (call connect dynamic tt)))) by in_log.
  split; [exact Hin|].
  exact (address_static_dynamic_agree Example.parseAccessKey
           Example.parseTunnelConfig joinHostPort fromErrorCode
           vpnAccepting (fetcherRejecting plainError) (str "server-1")
           (Some (str "Home")) staticKey localize (keyName := None)
           (cfg := tunnelConfig) (static := static) dynamic tt
           (dynamicRequest tunnelConfig) (Rejected plainError)
           eq_refl eq_refl eq_refl Hin eq_refl).
Defined.

(** A document that parses, and the one case where nothing is returned. *)
Lemma fetchTunnelConfig_returns_iff_witness :
  let f := fetcherReturning (str " transport: ok ") in
  fst (fetchTunnelConfig parseTunnelConfig f (Some location)
                                 (fresh (dynamicServer vpnAccepting f) tt))
  = Ok tunnelConfig.
Proof.
  intros f.
  apply (proj2 (fetchTunnelConfig_returns_iff Example.parseTunnelConfig f
                  location (fresh (dynamicServer vpnAccepting f) tt)
                  tunnelConfig)).
  exists (str " transport: ok "). repeat split. vm_compute. discriminate.
Defined.

(** Connected, then disconnected: the server the constructor built. *)
Lemma disconnect_restores_witness :
  let f := fetcherReturning (str "transport: ok") in
  let s := dynamicServer vpnAccepting f in
  let st := Example.session [Connect] (fresh s tt) in
  newServer vpnAccepting f (str "server-0") (Some (str "My server"))
            dynamicKey = Ok s /\
  address (this st) = str "example.com:8080" /\
  fst (Example.invoke Disconnect st) = Ok tt /\
  this (snd (Example.invoke Disconnect st)) = s.
Proof.
  intros f s st. split; [reflexivity|]. split; [reflexivity|].
  exact (disconnect_restores Example.parseAccessKey Example.parseTunnelConfig
           joinHostPort fromErrorCode vpnAccepting f (str "server-0")
           (Some (str "My server")) dynamicKey localize (s := s) tt
           (w' := tt) [Connect] eq_refl eq_refl).
Defined.

End Checks.
